(** * Hypoglycemia-risk calculator: the logit, the risk tier and the
      contribution decomposition of [app.py]

    The development embeds the three helpers of [app.py] ([logistic],
    [logit_from_inputs], [contributions]) and the tier branch of its page
    layout.  Python's [float] arithmetic is read over the real numbers
    ([np.exp] as [exp]); rounding of binary64 is not part of that model.
    Where rounding decides a property, [Binary64.logistic] is the same
    line of the source on binary64 itself, with [np.exp] a parameter.
    Selections are the strings the select boxes return, compared as the
    source compares them ([==] and [in]); the dictionary built by
    [contributions] is an association list in insertion order. *)

From Stdlib Require Import Reals Lra String Ascii List Bool Sorted.
From Stdlib Require PrimFloat.
Import ListNotations.

Open Scope string_scope.
Open Scope R_scope.

(** ** The few pieces of Python the program uses *)

Module Py.

(** [needle in hay] on [str].  The strings here are UTF-8 byte strings; the
    needles of the program are ASCII, so a match on bytes is a match on code
    points. *)
Fixpoint str_in (needle hay : string) : bool :=
  if String.prefix needle hay then true
  else match hay with
       | EmptyString => false
       | String _ rest => str_in needle rest
       end.

(** A [dict] with [str] keys, in insertion order. *)
Definition dict (V : Type) : Type := list (string * V).

(** [d[k]], when the key is there. *)
Fixpoint get {V : Type} (d : dict V) (k : string) : option V :=
  match d with
  | [] => None
  | (k', v) :: rest => if String.eqb k k' then Some v else get rest k
  end.

(** [d[k] = v]: an existing key keeps its place, a new one goes last. *)
Fixpoint setitem {V : Type} (d : dict V) (k : string) (v : V) : dict V :=
  match d with
  | [] => [(k, v)]
  | (k', v') :: rest =>
      if String.eqb k k' then (k', v) :: rest else (k', v') :: setitem rest k v
  end.

(** [list(d.keys())] and [list(d.values())]. *)
Definition keys {V : Type} (d : dict V) : list string := map fst d.
Definition values {V : Type} (d : dict V) : list V := map snd d.

(** [sum] of a list of floats. *)
Definition sum (l : list R) : R := fold_right Rplus 0 l.

End Py.

(** ** The form controls of the sidebar *)

(** The options of the four kinds of select box, in the order of the source;
    the first option of each is the one the page starts with. *)

Inductive Diagnosis : Type :=
| Gallbladder_pancreatic | Colonic | Gastric | Esophageal | Other_diseases.

Inductive DbpBand : Type := Dbp_lt90 | Dbp_90_100 | Dbp_101_110 | Dbp_gt110.

Inductive YesNo : Type := No | Yes.

Definition diagnosis_option (d : Diagnosis) : string :=
  match d with
  | Gallbladder_pancreatic => "Gallbladder/pancreatic disease (reference)"
  | Colonic => "Colonic lesion"
  | Gastric => "Gastric neoplasm"
  | Esophageal => "Esophageal lesion"
  | Other_diseases => "Other diseases"
  end.

Definition dbp_option (b : DbpBand) : string :=
  match b with
  | Dbp_lt90 => "< 90 mmHg (reference)"
  | Dbp_90_100 => "90–100 mmHg"
  | Dbp_101_110 => "101–110 mmHg"
  | Dbp_gt110 => "> 110 mmHg"
  end.

Definition yesno_option (f : YesNo) : string :=
  match f with
  | No => "No / 否"
  | Yes => "Yes / 是"
  end.

(** ** Coefficients *)

Definition COEF : Py.dict R :=
  [ ("intercept", -6.18);
    ("dx_colon", -2.342);
    ("dx_gastric", -3.267);
    ("dx_esophageal", -1.344);
    ("dx_other", -1.534);
    ("lax_yes", 2.826);
    ("dbp_cat2", 1.928);
    ("dbp_cat3", 0.287);
    ("dbp_cat4", -0.168);
    ("bun", 0.101);
    ("glucose", 0.074);
    ("hb", 0.151);
    ("nrs_yes", 5.46) ].

(** [COEF[k]].  Every key the program asks for is in the table
    ([COEF_keys_present] below), so the default is never taken. *)
Definition coef (k : string) : R :=
  match Py.get COEF k with
  | Some v => v
  | None => 0
  end.

(** ** Helpers *)

Definition logistic (x : R) : R := 1 / (1 + exp (- x)).

(** Each [z += ...] rebinds [z].  The hemoglobin widget returns an [int],
    which the product with a float weight turns into a float: it enters here
    as a real. *)
Definition logit_from_inputs
    (diagnosis dbp_cat : string) (glucose bun hb : R) (lax nrs : string) : R :=
  let z := coef "intercept" + coef "glucose" * glucose + coef "bun" * bun
           + coef "hb" * hb in
  let z := if String.eqb dbp_cat "90–100 mmHg" then z + coef "dbp_cat2"
           else if String.eqb dbp_cat "101–110 mmHg" then z + coef "dbp_cat3"
           else if String.eqb dbp_cat "> 110 mmHg" then z + coef "dbp_cat4"
           else z in
  let z := if Py.str_in "Yes" lax then z + coef "lax_yes" else z in
  let z := if Py.str_in "Yes" nrs then z + coef "nrs_yes" else z in
  let z := if String.eqb diagnosis "Colonic lesion" then z + coef "dx_colon"
           else if String.eqb diagnosis "Gastric neoplasm"
                then z + coef "dx_gastric"
           else if String.eqb diagnosis "Esophageal lesion"
                then z + coef "dx_esophageal"
           else if String.eqb diagnosis "Other diseases" then z + coef "dx_other"
           else z in
  z.

(** The baseline dictionary the layout builds for [contributions]:
    [{"glucose": base_glu, "bun": base_bun, "hb": base_hb, "dbp": base_dbp,
      "lax": base_lax, "nrs": base_nrs}].  Its keys are fixed, so it is a
    record; it has no diagnosis. *)
Record Base : Type := mkBase {
  base_glucose : R;
  base_bun : R;
  base_hb : R;
  base_dbp : string;
  base_lax : string;
  base_nrs : string
}.

(** [1.0 if c else 0.0]. *)
Definition indicator (c : bool) : R := if c then 1 else 0.

(** The two literal lists the loops of [contributions] run over. *)
Definition dbp_levels : list (string * string) :=
  [ ("dbp_cat2", "90–100 mmHg"); ("dbp_cat3", "101–110 mmHg");
    ("dbp_cat4", "> 110 mmHg") ].

Definition dx_levels : list (string * string) :=
  [ ("dx_colon", "Colonic lesion"); ("dx_gastric", "Gastric neoplasm");
    ("dx_esophageal", "Esophageal lesion"); ("dx_other", "Other diseases") ].

Definition contributions
    (diagnosis dbp_cat : string) (glucose bun hb : R) (lax nrs : string)
    (base : Base) : Py.dict R :=
  let contrib : Py.dict R := [] in
  let contrib := Py.setitem contrib "Serum_glucose (mmol/L)"
                   (coef "glucose" * (glucose - base_glucose base)) in
  let contrib := Py.setitem contrib "Blood_urea_nitrogen (mmol/L)"
                   (coef "bun" * (bun - base_bun base)) in
  let contrib := Py.setitem contrib "Hemoglobin (g/L)"
                   (coef "hb" * (hb - base_hb base)) in
  let contrib :=
    fold_left
      (fun contrib '(k, label) =>
         Py.setitem contrib (String.append "DBP: " label)
           (coef k * indicator (String.eqb dbp_cat label)))
      dbp_levels contrib in
  let contrib := Py.setitem contrib "Laxative use (Yes)"
                   (coef "lax_yes" * indicator (Py.str_in "Yes" lax)) in
  let contrib := Py.setitem contrib "NRS-2002 ≥3 (Yes)"
                   (coef "nrs_yes" * indicator (Py.str_in "Yes" nrs)) in
  let contrib :=
    fold_left
      (fun contrib '(key, label) =>
         Py.setitem contrib (String.append "Diagnosis: " label)
           (coef key * indicator (String.eqb diagnosis label)))
      dx_levels contrib in
  contrib.

(** ** Layout: what the page computes when the button is pressed *)

(** The branch on [p] that picks [tier] and [advice]. *)
Definition tier_branch (p : R) : string * string :=
  if Rlt_dec p 0.35 then
    ("低风险", "例行监测；常规术前宣教与观察。")
  else if Rlt_dec p 0.65 then
    ("中等风险",
     "加强术前/术后血糖监测；确保补液与碳水化合物支持；评估导泻耐受。")
  else
    ("高风险",
     "术前优化血糖并个体化肠道准备；考虑缩短禁食；密切动态监测与沟通。").

(** [z], [p] and the pair [(tier, advice)] of one press of the button. *)
Definition prediction
    (diagnosis dbp_cat : string) (glucose bun hb : R) (lax nrs : string)
    : R * R * (string * string) :=
  let z := logit_from_inputs diagnosis dbp_cat glucose bun hb lax nrs in
  let p := logistic z in
  (z, p, tier_branch p).

(** The dictionary [contrib] of the same press: [base] is built from the six
    baseline widgets and handed to [contributions]. *)
Definition explanation
    (diagnosis dbp_cat : string) (glucose bun hb : R) (lax nrs : string)
    (base_glu base_bun base_hb : R) (base_dbp base_lax base_nrs : string)
    : Py.dict R :=
  let base := mkBase base_glu base_bun base_hb base_dbp base_lax base_nrs in
  contributions diagnosis dbp_cat glucose bun hb lax nrs base.

(** ** Vocabulary of the specification *)

(** The reference level of each categorical input. *)
Definition reference_diagnosis : Diagnosis := Gallbladder_pancreatic.
Definition reference_dbp : DbpBand := Dbp_lt90.

(** Categorical offsets of the logit: zero at the reference level. *)
Definition dbp_offset (b : DbpBand) : R :=
  match b with
  | Dbp_lt90 => 0
  | Dbp_90_100 => coef "dbp_cat2"
  | Dbp_101_110 => coef "dbp_cat3"
  | Dbp_gt110 => coef "dbp_cat4"
  end.

Definition diagnosis_offset (d : Diagnosis) : R :=
  match d with
  | Gallbladder_pancreatic => 0
  | Colonic => coef "dx_colon"
  | Gastric => coef "dx_gastric"
  | Esophageal => coef "dx_esophageal"
  | Other_diseases => coef "dx_other"
  end.

Definition flag_set (f : YesNo) : bool :=
  match f with No => false | Yes => true end.

(** The three tiers with their advisory strings. *)
Definition low_tier : string * string :=
  ("低风险", "例行监测；常规术前宣教与观察。").
Definition moderate_tier : string * string :=
  ("中等风险",
   "加强术前/术后血糖监测；确保补液与碳水化合物支持；评估导泻耐受。").
Definition high_tier : string * string :=
  ("高风险",
   "术前优化血糖并个体化肠道准备；考虑缩短禁食；密切动态监测与沟通。").

(** The contribution of a dummy level as the specification words it:
    weight times (indicator of the current selection minus indicator of the
    baseline selection). *)
Definition spec_level_contribution (w : R) (current baseline : bool) : R :=
  w * (indicator current - indicator baseline).

(** The baseline dictionary as an input vector for [logit_from_inputs]: the
    baseline has no diagnosis, so the diagnosis with offset zero stands in. *)
Definition baseline_logit (base : Base) : R :=
  logit_from_inputs (diagnosis_option reference_diagnosis) (base_dbp base)
    (base_glucose base) (base_bun base) (base_hb base)
    (base_lax base) (base_nrs base).

(** The labels of the twelve bars of the chart. *)
Definition feature_labels : list string :=
  [ "Serum_glucose (mmol/L)"; "Blood_urea_nitrogen (mmol/L)";
    "Hemoglobin (g/L)";
    "DBP: 90–100 mmHg"; "DBP: 101–110 mmHg"; "DBP: > 110 mmHg";
    "Laxative use (Yes)"; "NRS-2002 ≥3 (Yes)";
    "Diagnosis: Colonic lesion"; "Diagnosis: Gastric neoplasm";
    "Diagnosis: Esophageal lesion"; "Diagnosis: Other diseases" ].

(** ** The chart and the ranges of the widgets *)

(** The colour of each bar:
    [[pos_color if v>0 else neg_color for v in df["Contribution"].values]]. *)
Definition colors (pos_color neg_color : string) (values : list R)
    : list string :=
  map (fun v => if Rgt_dec v 0 then pos_color else neg_color) values.

(** The arguments [min_value] and [max_value] of the three number inputs:
    [st.number_input(label, 2.0, 30.0, 5.6, 0.1)] for glucose,
    [(label, 0.0, 40.0, 6.0, 0.1)] for BUN and [(label, 60, 200, 130, 1)] for
    hemoglobin.  The widget returns no value outside them. *)
Definition glucose_widget (glucose : R) : Prop := 2.0 <= glucose <= 30.0.
Definition bun_widget (bun : R) : Prop := 0.0 <= bun <= 40.0.
Definition hb_widget (hb : R) : Prop := 60 <= hb <= 200.

(** The log-odds of a probability, the unit of the chart's horizontal axis
    ("Contribution to log-odds"). *)
Definition log_odds (p : R) : R := ln (p / (1 - p)).

(** ** The sigmoid on binary64 *)

Module Binary64.

Import PrimFloat.

(** [def logistic(x): return 1/(1+np.exp(-x))] on the floats of the
    program.  [np.exp] is numpy's and is taken as a parameter. *)
Definition logistic (np_exp : float -> float) (x : float) : float :=
  (1 / (1 + np_exp (- x)))%float.

(** [c] and its [n] successive neighbours in the direction of [next]. *)
Fixpoint steps (next : float -> float) (n : nat) (c : float) : list float :=
  match n with
  | O => [c]
  | S n' => c :: steps next n' (next c)
  end.

(** [e] is [c] or one of the four floats next below or next above it: what
    an implementation of the exponential returns when [c] is the float
    nearest to the true value. *)
Definition within_4ulp (c e : float) : Prop :=
  In e (steps next_down 4 c ++ steps next_up 4 c)%list.

End Binary64.

(** * Properties *)

Ltac coef_eval := cbv [coef COEF Py.get]; simpl.

(** ** The coefficient table and the selections *)

(** No lookup of the program can raise [KeyError]. *)
Lemma COEF_keys_present :
  Forall (fun k => Py.get COEF k <> None)
    [ "intercept"; "glucose"; "bun"; "hb"; "dbp_cat2"; "dbp_cat3"; "dbp_cat4";
      "lax_yes"; "nrs_yes"; "dx_colon"; "dx_gastric"; "dx_esophageal";
      "dx_other" ].
Proof. repeat constructor; discriminate. Qed.

(** The weights, as numbers. *)
Lemma coef_values :
  coef "intercept" = -6.18 /\ coef "glucose" = 0.074 /\ coef "bun" = 0.101 /\
  coef "hb" = 0.151 /\ coef "dbp_cat2" = 1.928 /\ coef "dbp_cat3" = 0.287 /\
  coef "dbp_cat4" = -0.168 /\ coef "lax_yes" = 2.826 /\
  coef "nrs_yes" = 5.46 /\ coef "dx_colon" = -2.342 /\
  coef "dx_gastric" = -3.267 /\ coef "dx_esophageal" = -1.344 /\
  coef "dx_other" = -1.534.
Proof. repeat split; reflexivity. Qed.

(** A select box of yes and no sets the flag exactly on [Yes]. *)
Lemma str_in_Yes_option (f : YesNo) :
  Py.str_in "Yes" (yesno_option f) = flag_set f.
Proof. destruct f; reflexivity. Qed.

(** The dictionary [contributions] returns, entry by entry. *)
Lemma contributions_entries diagnosis dbp_cat glucose bun hb lax nrs base :
  contributions diagnosis dbp_cat glucose bun hb lax nrs base =
  [ ("Serum_glucose (mmol/L)", coef "glucose" * (glucose - base_glucose base));
    ("Blood_urea_nitrogen (mmol/L)", coef "bun" * (bun - base_bun base));
    ("Hemoglobin (g/L)", coef "hb" * (hb - base_hb base));
    ("DBP: 90–100 mmHg",
       coef "dbp_cat2" * indicator (String.eqb dbp_cat "90–100 mmHg"));
    ("DBP: 101–110 mmHg",
       coef "dbp_cat3" * indicator (String.eqb dbp_cat "101–110 mmHg"));
    ("DBP: > 110 mmHg",
       coef "dbp_cat4" * indicator (String.eqb dbp_cat "> 110 mmHg"));
    ("Laxative use (Yes)", coef "lax_yes" * indicator (Py.str_in "Yes" lax));
    ("NRS-2002 ≥3 (Yes)", coef "nrs_yes" * indicator (Py.str_in "Yes" nrs));
    ("Diagnosis: Colonic lesion",
       coef "dx_colon" * indicator (String.eqb diagnosis "Colonic lesion"));
    ("Diagnosis: Gastric neoplasm",
       coef "dx_gastric" * indicator (String.eqb diagnosis "Gastric neoplasm"));
    ("Diagnosis: Esophageal lesion",
       coef "dx_esophageal"
       * indicator (String.eqb diagnosis "Esophageal lesion"));
    ("Diagnosis: Other diseases",
       coef "dx_other" * indicator (String.eqb diagnosis "Other diseases")) ].
Proof. reflexivity. Qed.

(** The dictionary has the twelve labels of the chart as keys, each once. *)
Lemma contributions_keys diagnosis dbp_cat glucose bun hb lax nrs base :
  Py.keys (contributions diagnosis dbp_cat glucose bun hb lax nrs base)
  = feature_labels.
Proof. reflexivity. Qed.

(** No two bars share a label, so no assignment of [contributions]
    overwrites an earlier one. *)
Lemma feature_labels_NoDup : NoDup feature_labels.
Proof.
  unfold feature_labels.
  repeat (constructor; [simpl; intuition discriminate|]).
  constructor.
Qed.

(** ** The logit *)

Section Logit.

Variables (glucose bun hb : R).

(** C1.  For every diagnosis, DBP band, glucose, BUN, hemoglobin, laxative
    flag and NRS flag, [logit_from_inputs] is the intercept plus the three
    weighted continuous values, plus the DBP coefficient (zero for the
    reference band), plus the laxative weight if that flag is set, plus the
    NRS weight if that flag is set, plus the diagnosis coefficient (zero for
    the reference diagnosis), all read from [COEF]. *)
Theorem logit_from_inputs_formula (d : Diagnosis) (b : DbpBand) (l n : YesNo) :
  logit_from_inputs (diagnosis_option d) (dbp_option b) glucose bun hb
    (yesno_option l) (yesno_option n)
  = coef "intercept" + coef "glucose" * glucose + coef "bun" * bun
    + coef "hb" * hb
    + dbp_offset b
    + (if flag_set l then coef "lax_yes" else 0)
    + (if flag_set n then coef "nrs_yes" else 0)
    + diagnosis_offset d.
Proof.
  destruct d, b, l, n; cbv [logit_from_inputs]; simpl; lra.
Qed.

(** C6.  With the diagnosis and the DBP band at their reference levels and
    both flags at no, [logit_from_inputs] is exactly the intercept plus the
    three weighted continuous values. *)
Theorem logit_from_inputs_reference :
  logit_from_inputs (diagnosis_option reference_diagnosis)
    (dbp_option reference_dbp) glucose bun hb
    (yesno_option No) (yesno_option No)
  = coef "intercept" + coef "glucose" * glucose + coef "bun" * bun
    + coef "hb" * hb.
Proof. reflexivity. Qed.

End Logit.

(** The logit, with the branches written as indicators: the labels of one
    select box differ pairwise, so at most one branch of a chain adds. *)
Lemma logit_from_inputs_indicators
    (diagnosis dbp_cat : string) (glucose bun hb : R) (lax nrs : string) :
  logit_from_inputs diagnosis dbp_cat glucose bun hb lax nrs
  = coef "intercept" + coef "glucose" * glucose + coef "bun" * bun
    + coef "hb" * hb
    + coef "dbp_cat2" * indicator (String.eqb dbp_cat "90–100 mmHg")
    + coef "dbp_cat3" * indicator (String.eqb dbp_cat "101–110 mmHg")
    + coef "dbp_cat4" * indicator (String.eqb dbp_cat "> 110 mmHg")
    + coef "lax_yes" * indicator (Py.str_in "Yes" lax)
    + coef "nrs_yes" * indicator (Py.str_in "Yes" nrs)
    + coef "dx_colon" * indicator (String.eqb diagnosis "Colonic lesion")
    + coef "dx_gastric" * indicator (String.eqb diagnosis "Gastric neoplasm")
    + coef "dx_esophageal"
      * indicator (String.eqb diagnosis "Esophageal lesion")
    + coef "dx_other" * indicator (String.eqb diagnosis "Other diseases").
Proof.
  unfold logit_from_inputs.
  destruct (Py.str_in "Yes" lax), (Py.str_in "Yes" nrs);
    (destruct (String.eqb_spec dbp_cat "90–100 mmHg") as [->|_];
     [|destruct (String.eqb_spec dbp_cat "101–110 mmHg") as [->|_];
       [|destruct (String.eqb_spec dbp_cat "> 110 mmHg") as [->|_]]]);
    (destruct (String.eqb_spec diagnosis "Colonic lesion") as [->|_];
     [|destruct (String.eqb_spec diagnosis "Gastric neoplasm") as [->|_];
       [|destruct (String.eqb_spec diagnosis "Esophageal lesion") as [->|_];
         [|destruct (String.eqb_spec diagnosis "Other diseases") as [->|_]]]]);
    simpl; lra.
Qed.

(** ** The probability and the tier *)

Lemma logistic_denominator_pos (x : R) : 0 < 1 + exp (- x).
Proof. pose proof (exp_pos (- x)). lra. Qed.

Lemma logistic_increasing (z1 z2 : R) : z1 < z2 -> logistic z1 < logistic z2.
Proof.
  intros Hlt. unfold logistic, Rdiv. rewrite !Rmult_1_l.
  apply Rinv_lt_contravar.
  - apply Rmult_lt_0_compat; apply logistic_denominator_pos.
  - apply Rplus_lt_compat_l, exp_increasing. lra.
Qed.

Lemma logistic_0 : logistic 0 = 0.5.
Proof. unfold logistic. rewrite Ropp_0, exp_0. lra. Qed.

Lemma logistic_range (x : R) : 0 < logistic x < 1.
Proof.
  pose proof (exp_pos (- x)) as He. unfold logistic. split.
  - apply Rdiv_lt_0_compat; lra.
  - apply Rmult_lt_reg_r with (1 + exp (- x)); [lra|].
    unfold Rdiv. rewrite Rmult_assoc, Rinv_l by lra. lra.
Qed.

(** The tier branch, case by case. *)
Lemma tier_branch_low (p : R) : p < 0.35 -> tier_branch p = low_tier.
Proof.
  intros Hp. unfold tier_branch. destruct (Rlt_dec p 0.35); [reflexivity|lra].
Qed.

Lemma tier_branch_moderate (p : R) :
  0.35 <= p < 0.65 -> tier_branch p = moderate_tier.
Proof.
  intros Hp. unfold tier_branch.
  destruct (Rlt_dec p 0.35); [lra|].
  destruct (Rlt_dec p 0.65); [reflexivity|lra].
Qed.

Lemma tier_branch_high (p : R) : 0.65 <= p -> tier_branch p = high_tier.
Proof.
  intros Hp. unfold tier_branch.
  destruct (Rlt_dec p 0.35); [lra|].
  destruct (Rlt_dec p 0.65); [lra|reflexivity].
Qed.

(** C2.  The probability of a logit [z] is [1 / (1 + e^(-z))]; the tier is
    low below 0.35, moderate from 0.35 up to but not including 0.65, and high
    from 0.65 on, so that 0.35 itself is moderate and 0.65 itself is high;
    each tier comes with its own advisory string. *)
Theorem probability_and_tier :
  (forall diagnosis dbp_cat glucose bun hb lax nrs,
     let '(z, p, tier_advice) :=
       prediction diagnosis dbp_cat glucose bun hb lax nrs in
     p = 1 / (1 + exp (- z)) /\ tier_advice = tier_branch p) /\
  (forall z, logistic z = 1 / (1 + exp (- z))) /\
  (forall p, p < 0.35 -> tier_branch p = low_tier) /\
  (forall p, 0.35 <= p < 0.65 -> tier_branch p = moderate_tier) /\
  (forall p, 0.65 <= p -> tier_branch p = high_tier) /\
  tier_branch 0.35 = moderate_tier /\
  tier_branch 0.65 = high_tier /\
  low_tier = ("低风险", "例行监测；常规术前宣教与观察。") /\
  moderate_tier =
    ("中等风险",
     "加强术前/术后血糖监测；确保补液与碳水化合物支持；评估导泻耐受。") /\
  high_tier =
    ("高风险",
     "术前优化血糖并个体化肠道准备；考虑缩短禁食；密切动态监测与沟通。").
Proof.
  split; [intros; simpl; split; reflexivity|].
  split; [reflexivity|].
  split; [exact tier_branch_low|].
  split; [exact tier_branch_moderate|].
  split; [exact tier_branch_high|].
  split; [apply tier_branch_moderate; lra|].
  split; [apply tier_branch_high; lra|].
  repeat split.
Qed.

(** The theorem at three probabilities, one in each tier. *)
Lemma probability_and_tier_witness :
  tier_branch 0.2 = low_tier /\ tier_branch 0.5 = moderate_tier /\
  tier_branch 0.9 = high_tier.
Proof.
  destruct probability_and_tier as (_ & _ & Hlow & Hmod & Hhigh & _).
  split; [apply Hlow; lra|].
  split; [apply Hmod; lra|apply Hhigh; lra].
Defined.

Lemma logistic_nondecreasing (z1 z2 : R) :
  z1 <= z2 -> logistic z1 <= logistic z2.
Proof.
  intros [Hlt | ->].
  - left. apply logistic_increasing. exact Hlt.
  - right. reflexivity.
Qed.

(** C7, as amended.  [logistic] never decreases: [z1 <= z2] gives
    [logistic z1 <= logistic z2]; and [logistic 0 = 0.5].  The strict order
    of the claim is that of the real formula only: on binary64 two logits
    can share the value 1.0 ([Binary64Facts.logistic_ties_at_one]). *)
Theorem logistic_never_decreases :
  (forall z1 z2, z1 <= z2 -> logistic z1 <= logistic z2) /\ logistic 0 = 0.5.
Proof. split; [exact logistic_nondecreasing|exact logistic_0]. Qed.

Lemma logistic_never_decreases_witness : logistic 0 <= logistic 1.
Proof. apply (proj1 logistic_never_decreases 0 1). lra. Defined.

Module Binary64Facts.

Import PrimFloat.

(** C7, the strict order refuted on binary64.  The logits 37 and 38 are in
    strict order, yet [logistic] returns exactly 1.0 at both, so the first
    value is not below the second: [e^-37] and [e^-38] are below [2^-53], and
    [1 + np.exp(-x)] rounds to 1.  This holds for every [np.exp] that
    returns, at -37 and at -38, a float within four units in the last place
    of the one nearest to the true value. *)
Lemma logistic_ties_at_one :
  (37 <? 38)%float = true /\
  forall np_exp : float -> float,
    Binary64.within_4ulp 0x1.898471fca6055p-54%float (np_exp (- 37)%float) ->
    Binary64.within_4ulp 0x1.2188ad6ae3303p-55%float (np_exp (- 38)%float) ->
    Binary64.logistic np_exp 37 = 1%float /\
    Binary64.logistic np_exp 38 = 1%float /\
    (Binary64.logistic np_exp 37 <? Binary64.logistic np_exp 38)%float = false.
Proof.
  split; [reflexivity|].
  intros np_exp H37 H38.
  assert (E37 : Binary64.logistic np_exp 37 = 1%float).
  { unfold Binary64.logistic. unfold Binary64.within_4ulp in H37.
    simpl in H37 |- *.
    repeat (destruct H37 as [H37|H37]; [rewrite <- H37; reflexivity|]).
    destruct H37. }
  assert (E38 : Binary64.logistic np_exp 38 = 1%float).
  { unfold Binary64.logistic. unfold Binary64.within_4ulp in H38.
    simpl in H38 |- *.
    repeat (destruct H38 as [H38|H38]; [rewrite <- H38; reflexivity|]).
    destruct H38. }
  rewrite E37, E38. repeat split.
Qed.

(** At the logit 0 binary64 gives exactly 0.5, [np.exp(-0.0)] being 1.0. *)
Lemma logistic_at_zero (np_exp : float -> float) :
  np_exp (- 0)%float = 1%float -> Binary64.logistic np_exp 0 = 0.5%float.
Proof. intros H. unfold Binary64.logistic. rewrite H. reflexivity. Qed.

End Binary64Facts.

(** ** The worked example *)

(** A lower bound on [exp] doubles its argument when squared. *)
Lemma exp_double_lower (a x : R) :
  0 <= a -> a <= exp x -> a * a <= exp (2 * x).
Proof.
  intros Ha Hle. replace (2 * x) with (x + x) by lra.
  rewrite exp_plus. apply Rmult_le_compat; assumption.
Qed.

(** [e^14.4704] is above a million: eight doublings of [1 + x <= e^x] at
    [x = 14.4704 / 256], each bound rounded down. *)
Lemma exp_example_lower : 1000000 < exp 14.4704.
Proof.
  assert (H0 : 1.0565 <= exp (14.4704 / 256)).
  { pose proof (exp_ineq1_le (14.4704 / 256)). lra. }
  assert (H1 : 1.1161 <= exp (14.4704 / 128)).
  { replace (14.4704 / 128) with (2 * (14.4704 / 256)) by lra.
    apply Rle_trans with (1.0565 * 1.0565); [lra|].
    apply exp_double_lower; [lra|exact H0]. }
  assert (H2 : 1.2456 <= exp (14.4704 / 64)).
  { replace (14.4704 / 64) with (2 * (14.4704 / 128)) by lra.
    apply Rle_trans with (1.1161 * 1.1161); [lra|].
    apply exp_double_lower; [lra|exact H1]. }
  assert (H3 : 1.5515 <= exp (14.4704 / 32)).
  { replace (14.4704 / 32) with (2 * (14.4704 / 64)) by lra.
    apply Rle_trans with (1.2456 * 1.2456); [lra|].
    apply exp_double_lower; [lra|exact H2]. }
  assert (H4 : 2.4071 <= exp (14.4704 / 16)).
  { replace (14.4704 / 16) with (2 * (14.4704 / 32)) by lra.
    apply Rle_trans with (1.5515 * 1.5515); [lra|].
    apply exp_double_lower; [lra|exact H3]. }
  assert (H5 : 5.7941 <= exp (14.4704 / 8)).
  { replace (14.4704 / 8) with (2 * (14.4704 / 16)) by lra.
    apply Rle_trans with (2.4071 * 2.4071); [lra|].
    apply exp_double_lower; [lra|exact H4]. }
  assert (H6 : 33.571 <= exp (14.4704 / 4)).
  { replace (14.4704 / 4) with (2 * (14.4704 / 8)) by lra.
    apply Rle_trans with (5.7941 * 5.7941); [lra|].
    apply exp_double_lower; [lra|exact H5]. }
  assert (H7 : 1127 <= exp (14.4704 / 2)).
  { replace (14.4704 / 2) with (2 * (14.4704 / 4)) by lra.
    apply Rle_trans with (33.571 * 33.571); [lra|].
    apply exp_double_lower; [lra|exact H6]. }
  replace 14.4704 with (2 * (14.4704 / 2)) at 1 by lra.
  apply Rlt_le_trans with (1127 * 1127); [lra|].
  apply exp_double_lower; [lra|exact H7].
Qed.

(** A large logit gives a probability next to one. *)
Lemma logistic_near_one (z bound : R) :
  0 < bound -> bound < exp z -> 1 - / bound < logistic z < 1.
Proof.
  intros Hb Hexp. split; [|apply logistic_range].
  assert (Hinv : exp (- z) < / bound).
  { rewrite exp_Ropp. apply Rinv_lt_contravar; [|exact Hexp].
    apply Rmult_lt_0_compat; lra. }
  pose proof (exp_pos (- z)) as Hpos.
  unfold logistic.
  apply Rmult_lt_reg_r with (1 + exp (- z)); [lra|].
  unfold Rdiv. rewrite Rmult_assoc, Rinv_l by lra.
  assert (0 < / bound) by (apply Rinv_0_lt_compat; exact Hb).
  nra.
Qed.

(** C8.  At the reference diagnosis and DBP band, glucose 5.6, BUN 6.0,
    hemoglobin 130 and both flags at no, the logit is
    [-6.18 + 0.074 * 5.6 + 0.101 * 6.0 + 0.151 * 130 = 14.4704]; the
    probability is within a millionth of 1 and the tier is high. *)
Theorem worked_example :
  let '(z, p, tier_advice) :=
    prediction (diagnosis_option reference_diagnosis)
      (dbp_option reference_dbp) 5.6 6.0 130
      (yesno_option No) (yesno_option No) in
  z = -6.18 + 0.074 * 5.6 + 0.101 * 6.0 + 0.151 * 130 /\
  z = 14.4704 /\
  1 - / 1000000 < p < 1 /\
  tier_advice = high_tier.
Proof.
  unfold prediction.
  rewrite logit_from_inputs_indicators. simpl.
  destruct coef_values as (-> & -> & -> & -> & _).
  replace (-6.18 + 0.074 * 5.6 + 0.101 * 6.0 + 0.151 * 130
           + coef "dbp_cat2" * 0 + coef "dbp_cat3" * 0 + coef "dbp_cat4" * 0
           + coef "lax_yes" * 0 + coef "nrs_yes" * 0 + coef "dx_colon" * 0
           + coef "dx_gastric" * 0 + coef "dx_esophageal" * 0
           + coef "dx_other" * 0)
    with (-6.18 + 0.074 * 5.6 + 0.101 * 6.0 + 0.151 * 130) by lra.
  replace (-6.18 + 0.074 * 5.6 + 0.101 * 6.0 + 0.151 * 130) with 14.4704
    by lra.
  assert (Hp : 1 - / 1000000 < logistic 14.4704 < 1).
  { apply logistic_near_one; [lra|exact exp_example_lower]. }
  repeat split; try lra.
  apply tier_branch_high. lra.
Qed.

(** ** The contribution decomposition *)

Section Contributions.

Variables (diagnosis dbp_cat : string) (glucose bun hb : R) (lax nrs : string).
Variable base : Base.

(** The three continuous entries: weight times the distance to the
    baseline. *)
Lemma contributions_continuous :
  Py.get
    (contributions diagnosis dbp_cat glucose bun hb lax nrs base)
    "Serum_glucose (mmol/L)"
    = Some (coef "glucose" * (glucose - base_glucose base)) /\
  Py.get
    (contributions diagnosis dbp_cat glucose bun hb lax nrs base)
    "Blood_urea_nitrogen (mmol/L)"
    = Some (coef "bun" * (bun - base_bun base)) /\
  Py.get
    (contributions diagnosis dbp_cat glucose bun hb lax nrs base)
    "Hemoglobin (g/L)"
    = Some (coef "hb" * (hb - base_hb base)).
Proof. repeat split. Qed.

(** The nine entries of the dummy levels: weight times the indicator of the
    current selection.  No field of [base] occurs on the right. *)
Lemma contributions_levels :
  Py.get
    (contributions diagnosis dbp_cat glucose bun hb lax nrs base)
    "DBP: 90–100 mmHg"
    = Some (coef "dbp_cat2" * indicator (String.eqb dbp_cat "90–100 mmHg")) /\
  Py.get
    (contributions diagnosis dbp_cat glucose bun hb lax nrs base)
    "DBP: 101–110 mmHg"
    = Some (coef "dbp_cat3" * indicator (String.eqb dbp_cat "101–110 mmHg")) /\
  Py.get
    (contributions diagnosis dbp_cat glucose bun hb lax nrs base)
    "DBP: > 110 mmHg"
    = Some (coef "dbp_cat4" * indicator (String.eqb dbp_cat "> 110 mmHg")) /\
  Py.get
    (contributions diagnosis dbp_cat glucose bun hb lax nrs base)
    "Laxative use (Yes)"
    = Some (coef "lax_yes" * indicator (Py.str_in "Yes" lax)) /\
  Py.get
    (contributions diagnosis dbp_cat glucose bun hb lax nrs base)
    "NRS-2002 ≥3 (Yes)"
    = Some (coef "nrs_yes" * indicator (Py.str_in "Yes" nrs)) /\
  Py.get
    (contributions diagnosis dbp_cat glucose bun hb lax nrs base)
    "Diagnosis: Colonic lesion"
    = Some (coef "dx_colon" * indicator (String.eqb diagnosis "Colonic lesion")) /\
  Py.get
    (contributions diagnosis dbp_cat glucose bun hb lax nrs base)
    "Diagnosis: Gastric neoplasm"
    = Some (coef "dx_gastric"
            * indicator (String.eqb diagnosis "Gastric neoplasm")) /\
  Py.get
    (contributions diagnosis dbp_cat glucose bun hb lax nrs base)
    "Diagnosis: Esophageal lesion"
    = Some (coef "dx_esophageal"
            * indicator (String.eqb diagnosis "Esophageal lesion")) /\
  Py.get
    (contributions diagnosis dbp_cat glucose bun hb lax nrs base)
    "Diagnosis: Other diseases"
    = Some (coef "dx_other" * indicator (String.eqb diagnosis "Other diseases")).
Proof. repeat split. Qed.

(** The sum of the twelve bars. *)
Lemma contributions_sum :
  Py.sum
    (Py.values (contributions diagnosis dbp_cat glucose bun hb lax nrs base))
  = coef "glucose" * (glucose - base_glucose base)
    + coef "bun" * (bun - base_bun base)
    + coef "hb" * (hb - base_hb base)
    + coef "dbp_cat2" * indicator (String.eqb dbp_cat "90–100 mmHg")
    + coef "dbp_cat3" * indicator (String.eqb dbp_cat "101–110 mmHg")
    + coef "dbp_cat4" * indicator (String.eqb dbp_cat "> 110 mmHg")
    + coef "lax_yes" * indicator (Py.str_in "Yes" lax)
    + coef "nrs_yes" * indicator (Py.str_in "Yes" nrs)
    + coef "dx_colon" * indicator (String.eqb diagnosis "Colonic lesion")
    + coef "dx_gastric" * indicator (String.eqb diagnosis "Gastric neoplasm")
    + coef "dx_esophageal"
      * indicator (String.eqb diagnosis "Esophageal lesion")
    + coef "dx_other" * indicator (String.eqb diagnosis "Other diseases").
Proof.
  rewrite contributions_entries.
  unfold Py.sum, Py.values. simpl. lra.
Qed.

End Contributions.

(** The entry of a dummy level is the specification's formula taken with a
    baseline that does not select the level. *)
Lemma spec_level_contribution_unselected (w : R) (current : bool) :
  spec_level_contribution w current false = w * indicator current.
Proof. unfold spec_level_contribution. simpl. lra. Qed.

(** A baseline that selects the level the current input selects makes the
    specification's formula vanish. *)
Lemma spec_level_contribution_same (w : R) (selected : bool) :
  spec_level_contribution w selected selected = 0.
Proof. unfold spec_level_contribution. lra. Qed.

(** C9.  The baseline DBP band, laxative flag and NRS flag have no influence:
    two presses that differ only in these three baseline selections build the
    same dictionary of contributions. *)
Theorem baseline_selections_ignored
    (diagnosis dbp_cat : string) (glucose bun hb : R) (lax nrs : string)
    (base_glu base_bun base_hb : R)
    (base_dbp base_lax base_nrs base_dbp' base_lax' base_nrs' : string) :
  explanation diagnosis dbp_cat glucose bun hb lax nrs
    base_glu base_bun base_hb base_dbp base_lax base_nrs
  = explanation diagnosis dbp_cat glucose bun hb lax nrs
      base_glu base_bun base_hb base_dbp' base_lax' base_nrs'.
Proof. unfold explanation. rewrite !contributions_entries. reflexivity. Qed.

(** C10.  The contributions add up to the logit of the current input minus
    the logit of the input made of the baseline glucose, BUN and hemoglobin
    with every categorical input at its reference level. *)
Theorem contributions_sum_reference_baseline
    (diagnosis dbp_cat : string) (glucose bun hb : R) (lax nrs : string)
    (base : Base) :
  Py.sum (Py.values
            (contributions diagnosis dbp_cat glucose bun hb lax nrs base))
  = logit_from_inputs diagnosis dbp_cat glucose bun hb lax nrs
    - logit_from_inputs (diagnosis_option reference_diagnosis)
        (dbp_option reference_dbp)
        (base_glucose base) (base_bun base) (base_hb base)
        (yesno_option No) (yesno_option No).
Proof.
  rewrite contributions_sum, !logit_from_inputs_indicators.
  simpl. lra.
Qed.

(** *** Where the baseline selections should have entered *)

(** C3, at a press where the current and the baseline DBP band are both
    90–100 mmHg (all else at the defaults of the page): the bar of that level
    is the full weight 1.928, while weight times (indicator of the current
    selection minus indicator of the baseline selection) is 0. *)
Theorem dbp_level_baseline_not_subtracted :
  let dbp_cat := dbp_option Dbp_90_100 in
  let base_dbp := dbp_option Dbp_90_100 in
  let contrib :=
    explanation (diagnosis_option reference_diagnosis) dbp_cat 5.6 6.0 130
      (yesno_option No) (yesno_option No)
      5.6 6.0 130 base_dbp (yesno_option No) (yesno_option No) in
  Py.get contrib "DBP: 90–100 mmHg" = Some 1.928 /\
  spec_level_contribution (coef "dbp_cat2")
    (String.eqb dbp_cat "90–100 mmHg") (String.eqb base_dbp "90–100 mmHg") = 0 /\
  1.928 <> 0.
Proof.
  split; [|split].
  - cbv [explanation]. rewrite contributions_entries. simpl.
    f_equal. coef_eval. lra.
  - apply spec_level_contribution_same.
  - lra.
Qed.

(** C4, at a press where the current and the baseline NRS flag are both yes
    (all else at the defaults of the page): the current input and the
    baseline are the same vector, so their logits differ by 0, while the
    contributions add up to the NRS weight 5.46. *)
Theorem sum_differs_from_logit_difference :
  let diagnosis := diagnosis_option reference_diagnosis in
  let dbp_cat := dbp_option reference_dbp in
  let lax := yesno_option No in
  let nrs := yesno_option Yes in
  let base := mkBase 5.6 6.0 130 dbp_cat lax nrs in
  Py.sum (Py.values (contributions diagnosis dbp_cat 5.6 6.0 130 lax nrs base))
    = 5.46 /\
  logit_from_inputs diagnosis dbp_cat 5.6 6.0 130 lax nrs - baseline_logit base
    = 0 /\
  5.46 <> 0.
Proof.
  split; [|split].
  - cbv zeta. rewrite contributions_sum. simpl. coef_eval. lra.
  - unfold baseline_logit. simpl. lra.
  - lra.
Qed.

(** C5, at a press where the baseline repeats the current input and the
    laxative flag is yes (all else at the defaults of the page): the bar of
    the laxative is the full weight 2.826, not 0. *)
Theorem equal_baseline_nonzero_contribution :
  let diagnosis := diagnosis_option reference_diagnosis in
  let dbp_cat := dbp_option reference_dbp in
  let lax := yesno_option Yes in
  let nrs := yesno_option No in
  let contrib :=
    explanation diagnosis dbp_cat 5.6 6.0 130 lax nrs
      5.6 6.0 130 dbp_cat lax nrs in
  Py.get contrib "Laxative use (Yes)" = Some 2.826 /\ 2.826 <> 0.
Proof.
  split.
  - cbv [explanation]. rewrite contributions_entries. simpl.
    f_equal. coef_eval. lra.
  - lra.
Qed.

(** * Further properties of the program *)

(** ** The sigmoid *)

(** X1.  Whatever the logit, the probability lies between 0 and 1, the
    ends included: the ends are what is left of the real formula's open
    bounds once [1 + np.exp(-x)] rounds to 1 or [np.exp] overflows. *)
Theorem logistic_between_0_and_1 (z : R) : 0 <= logistic z <= 1.
Proof. pose proof (logistic_range z). lra. Qed.

(** [logistic] in terms of [exp z]. *)
Lemma logistic_exp (z : R) : logistic z = exp z / (1 + exp z).
Proof.
  unfold logistic. rewrite exp_Ropp.
  pose proof (exp_pos z) as Hz. field. split; lra.
Qed.

(** X2.  Negating the logit complements the probability:
    [logistic (- z) = 1 - logistic z]. *)
Theorem logistic_opp (z : R) : logistic (- z) = 1 - logistic z.
Proof.
  rewrite (logistic_exp z). unfold logistic. rewrite Ropp_involutive.
  pose proof (exp_pos z) as Hz. field. lra.
Qed.

(** A probability threshold [c] is a logit threshold [log_odds c]. *)
Lemma logistic_lt_iff (z c : R) :
  0 < c < 1 -> (logistic z < c <-> z < log_odds c).
Proof.
  intros Hc. pose proof (exp_pos z) as Hz.
  assert (Hodds : 0 < c / (1 - c)) by (apply Rdiv_lt_0_compat; lra).
  assert (Hstep : logistic z < c <-> exp z < c / (1 - c)).
  { rewrite logistic_exp. split; intros H.
    - apply Rmult_lt_reg_r with (1 - c); [lra|].
      unfold Rdiv at 1. rewrite Rmult_assoc, Rinv_l by lra.
      apply Rmult_lt_compat_r with (r := 1 + exp z) in H; [|lra].
      unfold Rdiv in H. rewrite Rmult_assoc, Rinv_l in H by lra. lra.
    - apply Rmult_lt_reg_r with (1 + exp z); [lra|].
      unfold Rdiv at 1. rewrite Rmult_assoc, Rinv_l by lra.
      apply Rmult_lt_compat_r with (r := 1 - c) in H; [|lra].
      unfold Rdiv in H. rewrite Rmult_assoc, Rinv_l in H by lra. lra. }
  rewrite Hstep. unfold log_odds. split; intros H.
  - rewrite <- (ln_exp z). apply ln_increasing; assumption.
  - rewrite <- (exp_ln (c / (1 - c))) by assumption.
    apply exp_increasing. exact H.
Qed.

(** X4.  In terms of the logit the tiers are three intervals: low below
    [log_odds 0.35], moderate from there up to but not including
    [log_odds 0.65], high from [log_odds 0.65] on. *)
Theorem tier_by_logit :
  (forall z, z < log_odds 0.35 -> tier_branch (logistic z) = low_tier) /\
  (forall z, log_odds 0.35 <= z < log_odds 0.65 ->
             tier_branch (logistic z) = moderate_tier) /\
  (forall z, log_odds 0.65 <= z -> tier_branch (logistic z) = high_tier).
Proof.
  split; [|split]; intros z Hz.
  - apply tier_branch_low. apply logistic_lt_iff; [lra|exact Hz].
  - apply tier_branch_moderate. split.
    + apply Rnot_lt_le. intros H. apply logistic_lt_iff in H; lra.
    + apply logistic_lt_iff; [lra|apply Hz].
  - apply tier_branch_high.
    apply Rnot_lt_le. intros H. apply logistic_lt_iff in H; lra.
Qed.

(** The two thresholds lie on either side of 0, within 1 of it. *)
Lemma log_odds_thresholds :
  -1 < log_odds 0.35 < 0 /\ 0 < log_odds 0.65 < 1.
Proof.
  assert (He : 2 <= exp 1) by (pose proof (exp_ineq1_le 1); lra).
  unfold log_odds.
  replace (0.35 / (1 - 0.35)) with (7 / 13) by lra.
  replace (0.65 / (1 - 0.65)) with (13 / 7) by lra.
  repeat split.
  - replace (-1) with (Ropp 1) by lra.
    rewrite <- (ln_exp (Ropp 1)). apply ln_increasing; [apply exp_pos|].
    rewrite exp_Ropp.
    apply Rle_lt_trans with (/ 2); [|lra].
    apply Rinv_le_contravar; lra.
  - rewrite <- ln_1. apply ln_increasing; lra.
  - rewrite <- ln_1. apply ln_increasing; lra.
  - rewrite <- (ln_exp 1). apply ln_increasing; lra.
Qed.

(** The theorem at the logits -1, 0 and 1. *)
Lemma tier_by_logit_witness :
  tier_branch (logistic (-1)) = low_tier /\
  tier_branch (logistic 0) = moderate_tier /\
  tier_branch (logistic 1) = high_tier.
Proof.
  destruct tier_by_logit as (Hlow & Hmod & Hhigh).
  pose proof log_odds_thresholds as Hthr.
  split; [apply Hlow; lra|].
  split; [apply Hmod; lra|apply Hhigh; lra].
Defined.

(** ** The logit over the inputs the form allows *)

(** The thirteen weights replaced by their numbers. *)
Ltac coef_numbers_from H :=
  lazymatch type of H with
  | _ /\ _ =>
      let E := fresh in
      let H' := fresh in
      destruct H as [E H']; rewrite ?E; clear E; coef_numbers_from H'
  | _ => rewrite ?H; clear H
  end.

Ltac coef_numbers :=
  let H := fresh in
  pose proof coef_values as H; coef_numbers_from H.

(** Within the ranges of the number inputs the logit stays between -0.407
    and 40.494, whatever is selected. *)
Lemma logit_widget_range (d : Diagnosis) (b : DbpBand) (glucose bun hb : R)
    (l n : YesNo) :
  glucose_widget glucose -> bun_widget bun -> hb_widget hb ->
  -0.407 <= logit_from_inputs (diagnosis_option d) (dbp_option b)
              glucose bun hb (yesno_option l) (yesno_option n) <= 40.494.
Proof.
  unfold glucose_widget, bun_widget, hb_widget. intros Hg Hu Hh.
  rewrite logit_from_inputs_indicators.
  destruct d, b, l, n; simpl; coef_numbers; lra.
Qed.

(** X5.  For every selection and every glucose, BUN and hemoglobin within
    the ranges of the number inputs, the logit lies between -0.407 and
    40.494.  Both ends are reached: the lowest at gastric neoplasm, DBP above
    110, the three minima and both flags at no; the highest at the reference
    diagnosis, DBP 90–100, the three maxima and both flags at yes. *)
Theorem logit_bounds_on_the_form :
  (forall d b glucose bun hb l n,
     glucose_widget glucose -> bun_widget bun -> hb_widget hb ->
     -0.407 <= logit_from_inputs (diagnosis_option d) (dbp_option b)
                 glucose bun hb (yesno_option l) (yesno_option n)
            <= 40.494) /\
  logit_from_inputs (diagnosis_option Gastric) (dbp_option Dbp_gt110)
    2.0 0.0 60 (yesno_option No) (yesno_option No) = -0.407 /\
  logit_from_inputs (diagnosis_option reference_diagnosis)
    (dbp_option Dbp_90_100) 30.0 40.0 200
    (yesno_option Yes) (yesno_option Yes) = 40.494.
Proof.
  split; [exact logit_widget_range|].
  split; rewrite logit_from_inputs_indicators; simpl; coef_numbers; lra.
Qed.

(** The theorem at the values the page starts with. *)
Lemma logit_bounds_on_the_form_witness :
  -0.407 <= logit_from_inputs (diagnosis_option reference_diagnosis)
              (dbp_option reference_dbp) 5.6 6.0 130
              (yesno_option No) (yesno_option No) <= 40.494.
Proof.
  apply (proj1 logit_bounds_on_the_form);
    unfold glucose_widget, bun_widget, hb_widget; lra.
Defined.

(** A logit of -0.407 or more gives a probability above 0.37. *)
Lemma logistic_above_lowest (z : R) : -0.407 <= z -> 0.37 < logistic z.
Proof.
  intros Hz.
  assert (Hthr : log_odds 0.371 < -0.407).
  { unfold log_odds. replace (0.371 / (1 - 0.371)) with (371 / 629) by lra.
    rewrite <- (ln_exp (-0.407)). apply ln_increasing; [lra|].
    pose proof (exp_ineq1_le (-0.407)). lra. }
  destruct (Rlt_dec (logistic z) 0.371) as [Hlt|Hge]; [|lra].
  apply logistic_lt_iff in Hlt; lra.
Qed.

(** X6.  No input the form allows reaches the low tier: within the ranges of
    the number inputs the probability is above 0.37, so the tier is moderate
    or high. *)
Theorem low_tier_unreachable (d : Diagnosis) (b : DbpBand)
    (glucose bun hb : R) (l n : YesNo) :
  glucose_widget glucose -> bun_widget bun -> hb_widget hb ->
  let '(z, p, tier_advice) :=
    prediction (diagnosis_option d) (dbp_option b) glucose bun hb
      (yesno_option l) (yesno_option n) in
  0.37 < p /\ (tier_advice = moderate_tier \/ tier_advice = high_tier).
Proof.
  intros Hg Hu Hh. unfold prediction.
  pose proof (logit_widget_range d b glucose bun hb l n Hg Hu Hh) as [Hlo _].
  apply logistic_above_lowest in Hlo.
  split; [exact Hlo|].
  destruct (Rlt_dec
              (logistic
                 (logit_from_inputs (diagnosis_option d) (dbp_option b)
                    glucose bun hb (yesno_option l) (yesno_option n))) 0.65).
  - left. apply tier_branch_moderate. lra.
  - right. apply tier_branch_high. lra.
Qed.

(** The theorem at the least risky input of the form. *)
Lemma low_tier_unreachable_witness :
  let '(z, p, tier_advice) :=
    prediction (diagnosis_option Gastric) (dbp_option Dbp_gt110) 2.0 0.0 60
      (yesno_option No) (yesno_option No) in
  0.37 < p /\ (tier_advice = moderate_tier \/ tier_advice = high_tier).
Proof.
  apply (low_tier_unreachable Gastric Dbp_gt110 2.0 0.0 60 No No);
    unfold glucose_widget, bun_widget, hb_widget; lra.
Defined.

(** X7.  Two inputs with the same selections differ in logit by
    [0.074 * (glucose2 - glucose1) + 0.101 * (bun2 - bun1)
     + 0.151 * (hb2 - hb1)], whatever the selections are. *)
Theorem logit_difference_of_labs
    (diagnosis dbp_cat lax nrs : string)
    (glucose1 bun1 hb1 glucose2 bun2 hb2 : R) :
  logit_from_inputs diagnosis dbp_cat glucose2 bun2 hb2 lax nrs
  - logit_from_inputs diagnosis dbp_cat glucose1 bun1 hb1 lax nrs
  = 0.074 * (glucose2 - glucose1) + 0.101 * (bun2 - bun1)
    + 0.151 * (hb2 - hb1).
Proof.
  rewrite !logit_from_inputs_indicators. coef_numbers. lra.
Qed.

(** X8.  The probability never falls when glucose, BUN and hemoglobin rise
    or stay with the selections kept. *)
Theorem probability_monotone_in_labs
    (diagnosis dbp_cat lax nrs : string)
    (glucose1 bun1 hb1 glucose2 bun2 hb2 : R) :
  glucose1 <= glucose2 -> bun1 <= bun2 -> hb1 <= hb2 ->
  logistic (logit_from_inputs diagnosis dbp_cat glucose1 bun1 hb1 lax nrs)
  <= logistic (logit_from_inputs diagnosis dbp_cat glucose2 bun2 hb2 lax nrs).
Proof.
  intros Hg Hu Hh.
  apply logistic_nondecreasing.
  rewrite !logit_from_inputs_indicators. coef_numbers. lra.
Qed.

(** The theorem at the defaults of the page against a higher glucose. *)
Lemma probability_monotone_in_labs_witness :
  logistic (logit_from_inputs (diagnosis_option reference_diagnosis)
              (dbp_option reference_dbp) 5.6 6.0 130
              (yesno_option No) (yesno_option No))
  <= logistic (logit_from_inputs (diagnosis_option reference_diagnosis)
                 (dbp_option reference_dbp) 7.0 6.0 130
                 (yesno_option No) (yesno_option No)).
Proof.
  apply (probability_monotone_in_labs
           (diagnosis_option reference_diagnosis) (dbp_option reference_dbp)
           (yesno_option No) (yesno_option No) 5.6 6.0 130 7.0 6.0 130);
    lra.
Defined.

(** X9.  With everything else kept, the laxative flag at yes adds 2.826 to
    the logit and the NRS flag at yes 5.46, and neither lowers the
    probability. *)
Theorem flags_raise_the_risk
    (diagnosis dbp_cat : string) (glucose bun hb : R) (other : string) :
  let z_lax f :=
    logit_from_inputs diagnosis dbp_cat glucose bun hb (yesno_option f) other in
  let z_nrs f :=
    logit_from_inputs diagnosis dbp_cat glucose bun hb other (yesno_option f) in
  z_lax Yes = z_lax No + 2.826 /\
  z_nrs Yes = z_nrs No + 5.46 /\
  logistic (z_lax No) <= logistic (z_lax Yes) /\
  logistic (z_nrs No) <= logistic (z_nrs Yes).
Proof.
  cbv zeta.
  assert (Hlax :
    logit_from_inputs diagnosis dbp_cat glucose bun hb (yesno_option Yes) other
    = logit_from_inputs diagnosis dbp_cat glucose bun hb (yesno_option No) other
      + 2.826).
  { rewrite !logit_from_inputs_indicators. simpl. coef_numbers. lra. }
  assert (Hnrs :
    logit_from_inputs diagnosis dbp_cat glucose bun hb other (yesno_option Yes)
    = logit_from_inputs diagnosis dbp_cat glucose bun hb other (yesno_option No)
      + 5.46).
  { rewrite !logit_from_inputs_indicators. simpl. coef_numbers. lra. }
  repeat split; try assumption; apply logistic_nondecreasing; lra.
Qed.

(** X10.  A DBP string other than the three labels of [dbp_levels], a
    diagnosis other than the four labels of [dx_levels] and flags without
    the substring "Yes" are all taken as reference levels: the logit is the
    intercept plus the three weighted continuous values. *)
Theorem unlisted_selections_count_as_reference
    (diagnosis dbp_cat : string) (glucose bun hb : R) (lax nrs : string) :
  ~ In dbp_cat (map snd dbp_levels) ->
  ~ In diagnosis (map snd dx_levels) ->
  Py.str_in "Yes" lax = false ->
  Py.str_in "Yes" nrs = false ->
  logit_from_inputs diagnosis dbp_cat glucose bun hb lax nrs
  = coef "intercept" + coef "glucose" * glucose + coef "bun" * bun
    + coef "hb" * hb.
Proof.
  intros Hdbp Hdx Hlax Hnrs.
  rewrite logit_from_inputs_indicators, Hlax, Hnrs.
  simpl in Hdbp, Hdx.
  destruct (String.eqb_spec dbp_cat "90–100 mmHg");
    [exfalso; apply Hdbp; auto|].
  destruct (String.eqb_spec dbp_cat "101–110 mmHg");
    [exfalso; apply Hdbp; auto|].
  destruct (String.eqb_spec dbp_cat "> 110 mmHg");
    [exfalso; apply Hdbp; auto|].
  destruct (String.eqb_spec diagnosis "Colonic lesion");
    [exfalso; apply Hdx; auto|].
  destruct (String.eqb_spec diagnosis "Gastric neoplasm");
    [exfalso; apply Hdx; auto|].
  destruct (String.eqb_spec diagnosis "Esophageal lesion");
    [exfalso; apply Hdx; auto|].
  destruct (String.eqb_spec diagnosis "Other diseases");
    [exfalso; apply Hdx; auto 6|].
  simpl. lra.
Qed.

(** The theorem at a DBP band typed with a hyphen for the dash, a diagnosis
    in other capitals, a lower-case "yes" and an empty string. *)
Lemma unlisted_selections_count_as_reference_witness :
  logit_from_inputs "Colonic Lesion" "90-100 mmHg" 5.6 6.0 130 "yes" ""
  = coef "intercept" + coef "glucose" * 5.6 + coef "bun" * 6.0
    + coef "hb" * 130.
Proof.
  apply unlisted_selections_count_as_reference;
    try reflexivity; simpl; intuition discriminate.
Defined.

(** ** The bars of the chart *)

(** A key has an entry exactly when it is among the keys. *)
Lemma get_None_iff {V : Type} (d : Py.dict V) (k : string) :
  Py.get d k = None <-> ~ In k (Py.keys d).
Proof.
  induction d as [|[k' v] rest IH]; simpl.
  - tauto.
  - destruct (String.eqb_spec k k') as [->|Hne].
    + split; [discriminate|]. intros H. exfalso. apply H. left. reflexivity.
    + rewrite IH. split.
      * intros H [Heq|Hin]; [congruence|exact (H Hin)].
      * intros H Hin. apply H. right. exact Hin.
Qed.

(** X11.  Whatever the input and the baseline, [contributions] returns
    twelve entries under the same twelve distinct labels in the same order;
    a label has a bar exactly when it is one of them. *)
Theorem contributions_shape
    (diagnosis dbp_cat : string) (glucose bun hb : R) (lax nrs : string)
    (base : Base) :
  let contrib := contributions diagnosis dbp_cat glucose bun hb lax nrs base in
  Py.keys contrib = feature_labels /\
  NoDup (Py.keys contrib) /\
  length contrib = 12%nat /\
  (forall label, Py.get contrib label <> None <-> In label feature_labels).
Proof.
  cbv zeta. rewrite contributions_keys.
  split; [reflexivity|]. split; [exact feature_labels_NoDup|].
  split; [rewrite contributions_entries; reflexivity|].
  intros label.
  pose proof (get_None_iff
                (contributions diagnosis dbp_cat glucose bun hb lax nrs base)
                label) as Hnone.
  rewrite contributions_keys in Hnone.
  destruct (in_dec string_dec label feature_labels) as [Hin|Hout].
  - split; [intros _; exact Hin|]. intros _ Heq. apply Hnone in Heq. tauto.
  - split; [|tauto]. intros Hget. exfalso. apply Hget, Hnone, Hout.
Qed.

(** X12.  At most one DBP bar and at most one diagnosis bar differ from
    zero: the bar of the level the current input selects carries the full
    weight of that level, the bars of the other levels are 0, and all are 0
    when the selection is none of the levels. *)
Theorem level_bars_one_hot
    (diagnosis dbp_cat : string) (glucose bun hb : R) (lax nrs : string)
    (base : Base) :
  let bar label :=
    Py.get (contributions diagnosis dbp_cat glucose bun hb lax nrs base)
      label in
  (exists v2 v3 v4,
     bar "DBP: 90–100 mmHg" = Some v2 /\
     bar "DBP: 101–110 mmHg" = Some v3 /\
     bar "DBP: > 110 mmHg" = Some v4 /\
     ((dbp_cat = "90–100 mmHg" /\ v2 = 1.928 /\ v3 = 0 /\ v4 = 0) \/
      (dbp_cat = "101–110 mmHg" /\ v2 = 0 /\ v3 = 0.287 /\ v4 = 0) \/
      (dbp_cat = "> 110 mmHg" /\ v2 = 0 /\ v3 = 0 /\ v4 = -0.168) \/
      (~ In dbp_cat (map snd dbp_levels) /\ v2 = 0 /\ v3 = 0 /\ v4 = 0))) /\
  (exists c g e o,
     bar "Diagnosis: Colonic lesion" = Some c /\
     bar "Diagnosis: Gastric neoplasm" = Some g /\
     bar "Diagnosis: Esophageal lesion" = Some e /\
     bar "Diagnosis: Other diseases" = Some o /\
     ((diagnosis = "Colonic lesion"
       /\ c = -2.342 /\ g = 0 /\ e = 0 /\ o = 0) \/
      (diagnosis = "Gastric neoplasm"
       /\ c = 0 /\ g = -3.267 /\ e = 0 /\ o = 0) \/
      (diagnosis = "Esophageal lesion"
       /\ c = 0 /\ g = 0 /\ e = -1.344 /\ o = 0) \/
      (diagnosis = "Other diseases"
       /\ c = 0 /\ g = 0 /\ e = 0 /\ o = -1.534) \/
      (~ In diagnosis (map snd dx_levels)
       /\ c = 0 /\ g = 0 /\ e = 0 /\ o = 0))).
Proof.
  cbv zeta.
  destruct (contributions_levels diagnosis dbp_cat glucose bun hb lax nrs base)
    as (H2 & H3 & H4 & _ & _ & Hc & Hg & He & Ho).
  split.
  - do 3 eexists.
    split; [exact H2|]. split; [exact H3|]. split; [exact H4|].
    destruct (String.eqb_spec dbp_cat "90–100 mmHg") as [->|N2].
    { left. simpl. coef_numbers. repeat split; lra. }
    destruct (String.eqb_spec dbp_cat "101–110 mmHg") as [->|N3].
    { right; left. simpl. coef_numbers. repeat split; lra. }
    destruct (String.eqb_spec dbp_cat "> 110 mmHg") as [->|N4].
    { right; right; left. simpl. coef_numbers. repeat split; lra. }
    right; right; right. simpl. coef_numbers.
    split; [intuition congruence|]. repeat split; lra.
  - do 4 eexists.
    split; [exact Hc|]. split; [exact Hg|]. split; [exact He|].
    split; [exact Ho|].
    destruct (String.eqb_spec diagnosis "Colonic lesion") as [->|Nc].
    { left. simpl. coef_numbers. repeat split; lra. }
    destruct (String.eqb_spec diagnosis "Gastric neoplasm") as [->|Ng].
    { right; left. simpl. coef_numbers. repeat split; lra. }
    destruct (String.eqb_spec diagnosis "Esophageal lesion") as [->|Ne].
    { right; right; left. simpl. coef_numbers. repeat split; lra. }
    destruct (String.eqb_spec diagnosis "Other diseases") as [->|No'].
    { right; right; right; left. simpl. coef_numbers. repeat split; lra. }
    right; right; right; right. simpl. coef_numbers.
    split; [intuition congruence|]. repeat split; lra.
Qed.

(** X13.  The bar of a continuous feature is its weight times the distance
    to the baseline: it is positive exactly when the value is above the
    baseline and 0 exactly when the two are equal. *)
Theorem continuous_bars_follow_the_baseline
    (diagnosis dbp_cat : string) (glucose bun hb : R) (lax nrs : string)
    (base : Base) :
  let bar label :=
    Py.get (contributions diagnosis dbp_cat glucose bun hb lax nrs base)
      label in
  exists vg vu vh,
    bar "Serum_glucose (mmol/L)" = Some vg /\
    bar "Blood_urea_nitrogen (mmol/L)" = Some vu /\
    bar "Hemoglobin (g/L)" = Some vh /\
    vg = 0.074 * (glucose - base_glucose base) /\
    vu = 0.101 * (bun - base_bun base) /\
    vh = 0.151 * (hb - base_hb base) /\
    (0 < vg <-> base_glucose base < glucose) /\
    (0 < vu <-> base_bun base < bun) /\
    (0 < vh <-> base_hb base < hb) /\
    (vg = 0 <-> glucose = base_glucose base) /\
    (vu = 0 <-> bun = base_bun base) /\
    (vh = 0 <-> hb = base_hb base).
Proof.
  cbv zeta.
  destruct (contributions_continuous diagnosis dbp_cat glucose bun hb lax nrs
              base) as (Hg & Hu & Hh).
  do 3 eexists.
  split; [exact Hg|]. split; [exact Hu|]. split; [exact Hh|].
  coef_numbers. repeat split; intros; lra.
Qed.

(** Bars that are all positive are all drawn in [pos_color]. *)
Lemma colors_all_positive (pos_color neg_color : string) (values : list R) :
  Forall (fun v => 0 < v) values ->
  colors pos_color neg_color values = repeat pos_color (length values).
Proof.
  induction 1 as [|v vs Hv _ IH]; simpl; [reflexivity|].
  destruct (Rgt_dec v 0); [|lra]. f_equal. exact IH.
Qed.

(** X14.  On bars in ascending order, as [sort_values("Contribution")]
    leaves them, the colours are a run of [neg_color] followed by a run of
    [pos_color]: the first run covers the bars that are negative or 0, the
    second the positive ones. *)
Theorem colors_of_ascending_bars
    (pos_color neg_color : string) (values : list R) :
  Sorted Rle values ->
  exists k : nat,
    (k <= length values)%nat /\
    colors pos_color neg_color values
    = (repeat neg_color k ++ repeat pos_color (length values - k))%list /\
    Forall (fun v => v <= 0) (firstn k values) /\
    Forall (fun v => 0 < v) (skipn k values).
Proof.
  intros Hsorted.
  apply Sorted_StronglySorted in Hsorted;
    [|intros x y z; apply Rle_trans].
  induction Hsorted as [|v vs Hvs IH Hall].
  - exists 0%nat. repeat split; constructor.
  - destruct (Rgt_dec v 0) as [Hpos|Hneg].
    + assert (Hrest : Forall (fun w => 0 < w) (v :: vs)).
      { constructor; [lra|].
        apply Forall_impl with (P := Rle v); [intros w Hw; lra|exact Hall]. }
      exists 0%nat. split; [apply Nat.le_0_l|].
      split; [|split; [constructor|exact Hrest]].
      rewrite (colors_all_positive _ _ _ Hrest), Nat.sub_0_r. reflexivity.
    + destruct IH as (k & Hk & Hcolors & Hfirst & Hlast).
      exists (S k). split; [simpl; apply le_n_S; exact Hk|].
      split; [|split].
      * simpl. destruct (Rgt_dec v 0); [contradiction|].
        f_equal. exact Hcolors.
      * simpl. constructor; [lra|exact Hfirst].
      * simpl. exact Hlast.
Qed.

(** The theorem on three bars, one below 0, one at 0 and one above. *)
Lemma colors_of_ascending_bars_witness :
  exists k : nat,
    (k <= 3)%nat /\
    colors "#c0392b" "#2980b9" [-1; 0; 2]
    = (repeat "#2980b9" k ++ repeat "#c0392b" (3 - k))%list /\
    Forall (fun v => v <= 0) (firstn k [-1; 0; 2]) /\
    Forall (fun v => 0 < v) (skipn k [-1; 0; 2]).
Proof.
  apply (colors_of_ascending_bars "#c0392b" "#2980b9" [-1; 0; 2]).
  repeat constructor; lra.
Defined.

(** X15.  When every selection is at its reference level and the baseline
    repeats the three continuous values, all twelve bars are 0 and all are
    drawn in [neg_color], the colour of a fall in risk: only a bar above 0
    gets [pos_color]. *)
Theorem colors_when_all_bars_vanish
    (pos_color neg_color : string) (glucose bun hb : R)
    (base_dbp base_lax base_nrs : string) :
  let contrib :=
    explanation (diagnosis_option reference_diagnosis)
      (dbp_option reference_dbp) glucose bun hb
      (yesno_option No) (yesno_option No)
      glucose bun hb base_dbp base_lax base_nrs in
  Forall (fun v => v = 0) (Py.values contrib) /\
  colors pos_color neg_color (Py.values contrib) = repeat neg_color 12.
Proof.
  cbv zeta. unfold explanation. rewrite contributions_entries.
  unfold Py.values, colors. simpl.
  split.
  - repeat (constructor; [lra|]). constructor.
  - repeat (match goal with
            | |- context [Rgt_dec ?v 0] =>
                destruct (Rgt_dec v 0); [exfalso; lra|]
            end).
    reflexivity.
Qed.
